(** * Mattermost platform substrate: the file store and the platform service

    Shallow embedding of [server/platform/shared/filestore/filesstore.go],
    followed by a model of the platform service that owns the database
    topology, the metrics listener and the goroutine tracker.

    Conventions used for the Go code:
    - a Go [string] is a [string]; [int64] is a [Z];
    - a pointer [*T] is an [option T], [None] being [nil];
    - a function that can panic (nil dereference) returns in [option],
      [None] being the panic;
    - a method with a pointer receiver that mutates the receiver returns the
      updated pointee together with its Go result;
    - an [error] result is an [option error], [None] being [nil]. *)

From stdpp Require Import base strings list.
From Stdlib Require Import ZArith Lia.

Local Open Scope string_scope.

(** ** github.com/pkg/errors, as far as the file store uses it *)

Inductive error : Type :=
| errors_New (msg : string)
| errors_Wrap (err : error) (msg : string).

(** A Go pointer. *)
Definition ptr (T : Type) : Type := option T.

(** ** Calls with side effects

    A Go call that may touch the outside world (disk, network) and may panic
    is a function from the world before the call to either a panic ([None])
    or a result with the world after the call. *)

Definition call (W A : Type) : Type := W -> option (A * W).

Definition ret {W A : Type} (a : A) : call W A := fun w => Some (a, w).

Definition bind {W A B : Type} (c : call W A) (k : A -> call W B) : call W B :=
  fun w => match c w with
           | Some (a, w') => k a w'
           | None => None
           end.

Definition panic {W A : Type} : call W A := fun _ => None.

(** ** package model: the configuration the file store consumes *)

Module model.

(** Modelled from the spec: [model.FileSettings] is declared in the public
    model package, outside the file store. These are the fields the file
    store consumes (FileSettings.DriverName, Directory, AmazonS3AccessKeyId,
    AmazonS3SecretAccessKey, AmazonS3Bucket, AmazonS3PathPrefix,
    AmazonS3Region, AmazonS3Endpoint, AmazonS3SSL, AmazonS3SignV2,
    AmazonS3SSE, AmazonS3Trace, AmazonS3RequestTimeoutMilliseconds); each is
    a pointer, as the file store dereferences it or compares it with nil. *)
Record FileSettings : Type := mkFileSettings {
  DriverName : ptr string;
  Directory : ptr string;
  AmazonS3AccessKeyId : ptr string;
  AmazonS3SecretAccessKey : ptr string;
  AmazonS3Bucket : ptr string;
  AmazonS3PathPrefix : ptr string;
  AmazonS3Region : ptr string;
  AmazonS3Endpoint : ptr string;
  AmazonS3SSL : ptr bool;
  AmazonS3SignV2 : ptr bool;
  AmazonS3SSE : ptr bool;
  AmazonS3Trace : ptr bool;
  AmazonS3RequestTimeoutMilliseconds : ptr Z
}.

End model.

Module filestore.

Definition driverS3 : string := "amazons3".
Definition driverLocal : string := "local".

Record FileBackendSettings : Type := mkFileBackendSettings {
  DriverName : string;
  Directory : string;
  AmazonS3AccessKeyId : string;
  AmazonS3SecretAccessKey : string;
  AmazonS3Bucket : string;
  AmazonS3PathPrefix : string;
  AmazonS3Region : string;
  AmazonS3Endpoint : string;
  AmazonS3SSL : bool;
  AmazonS3SignV2 : bool;
  AmazonS3SSE : bool;
  AmazonS3Trace : bool;
  SkipVerify : bool;
  AmazonS3RequestTimeoutMilliseconds : Z
}.

Definition set_AmazonS3Endpoint (v : string) (s : FileBackendSettings)
  : FileBackendSettings :=
  {| DriverName := DriverName s; Directory := Directory s;
     AmazonS3AccessKeyId := AmazonS3AccessKeyId s;
     AmazonS3SecretAccessKey := AmazonS3SecretAccessKey s;
     AmazonS3Bucket := AmazonS3Bucket s;
     AmazonS3PathPrefix := AmazonS3PathPrefix s;
     AmazonS3Region := AmazonS3Region s;
     AmazonS3Endpoint := v;
     AmazonS3SSL := AmazonS3SSL s; AmazonS3SignV2 := AmazonS3SignV2 s;
     AmazonS3SSE := AmazonS3SSE s; AmazonS3Trace := AmazonS3Trace s;
     SkipVerify := SkipVerify s;
     AmazonS3RequestTimeoutMilliseconds :=
       AmazonS3RequestTimeoutMilliseconds s |}.

(** [func (settings *FileBackendSettings) CheckMandatoryS3Fields() error].
    The first component is the receiver after the call. The body reads and
    writes the receiver only: it takes no client, connection or context. *)
Definition CheckMandatoryS3Fields (settings : FileBackendSettings)
  : FileBackendSettings * option error :=
  if decide (AmazonS3Bucket settings = "") then
    (settings, Some (errors_New "missing s3 bucket settings"))
  else if decide (AmazonS3Endpoint settings = "") then
    (set_AmazonS3Endpoint "s3.amazonaws.com" settings, None)
  else
    (settings, None).

(** [fileSettings.F == nil || *fileSettings.F] *)
Definition nil_or_true (p : ptr bool) : bool :=
  match p with
  | None => true
  | Some b => b
  end.

(** [fileSettings.F != nil && *fileSettings.F] *)
Definition set_and_true (p : ptr bool) : bool :=
  match p with
  | None => false
  | Some b => b
  end.

Section FromConfig.

(** [model.ImageDriverLocal], a constant of the model package. *)
Variable ImageDriverLocal : string.

(** [NewFileBackendSettingsFromConfig]. Every [*fileSettings.F] is a
    dereference that panics on nil; the operands of a composite literal are
    evaluated in order, so the first nil pointer met decides. *)
Definition NewFileBackendSettingsFromConfig
    (fileSettings : ptr model.FileSettings)
    (enableComplianceFeature skipVerify : bool)
  : option FileBackendSettings :=
  fs ← fileSettings;
  driver ← model.DriverName fs;
  if decide (driver = ImageDriverLocal) then
    driverName ← model.DriverName fs;
    directory ← model.Directory fs;
    Some {| DriverName := driverName; Directory := directory;
            AmazonS3AccessKeyId := ""; AmazonS3SecretAccessKey := "";
            AmazonS3Bucket := ""; AmazonS3PathPrefix := "";
            AmazonS3Region := ""; AmazonS3Endpoint := "";
            AmazonS3SSL := false; AmazonS3SignV2 := false;
            AmazonS3SSE := false; AmazonS3Trace := false;
            SkipVerify := false;
            AmazonS3RequestTimeoutMilliseconds := 0%Z |}
  else
    driverName ← model.DriverName fs;
    accessKeyId ← model.AmazonS3AccessKeyId fs;
    secretAccessKey ← model.AmazonS3SecretAccessKey fs;
    bucket ← model.AmazonS3Bucket fs;
    pathPrefix ← model.AmazonS3PathPrefix fs;
    region ← model.AmazonS3Region fs;
    endpoint ← model.AmazonS3Endpoint fs;
    let ssl := nil_or_true (model.AmazonS3SSL fs) in
    let signV2 := set_and_true (model.AmazonS3SignV2 fs) in
    let sse :=
      set_and_true (model.AmazonS3SSE fs) && enableComplianceFeature in
    let trace := set_and_true (model.AmazonS3Trace fs) in
    timeout ← model.AmazonS3RequestTimeoutMilliseconds fs;
    Some {| DriverName := driverName; Directory := "";
            AmazonS3AccessKeyId := accessKeyId;
            AmazonS3SecretAccessKey := secretAccessKey;
            AmazonS3Bucket := bucket;
            AmazonS3PathPrefix := pathPrefix;
            AmazonS3Region := region;
            AmazonS3Endpoint := endpoint;
            AmazonS3SSL := ssl; AmazonS3SignV2 := signV2;
            AmazonS3SSE := sse; AmazonS3Trace := trace;
            SkipVerify := skipVerify;
            AmazonS3RequestTimeoutMilliseconds := timeout |}.

End FromConfig.

(** ** Backends and interface values *)

(** [LocalFileBackend] is declared in localstore.go; [NewFileBackend] sets
  its [directory] field. *)
Record LocalFileBackend : Type := mkLocalFileBackend { directory : string }.

Section Backends.

(** [io.Reader], [context.Context], and the storage and network the
    backends act on. *)
Context {Reader Ctx World : Type}.

(** The methods of a concrete type [T] that this file calls through the
    [FileBackend] interface: [WriteFile], which every implementation has,
    and [WriteFileContext], which a type has or not. The other methods of
    the interface are declared but never called here. *)
Record methods (T : Type) : Type := mkMethods {
  WriteFile_of : T -> Reader -> string -> call World (Z * option error);
  WriteFileContext_of :
    option (T -> Ctx -> Reader -> string -> call World (Z * option error))
}.
Global Arguments WriteFile_of {T} _ _ _ _ _.
Global Arguments WriteFileContext_of {T} _.

(** A value of interface type [FileBackend]: nil, or a value of a concrete
    type together with that type's methods. *)
Inductive FileBackend : Type :=
| FileBackend_nil
| FileBackend_of {T : Type} (tab : methods T) (v : T).

(** [fb.WriteFile(fr, path)]: a method call on a nil interface panics. *)
Definition WriteFile (fb : FileBackend) (fr : Reader) (path : string)
  : call World (Z * option error) :=
  match fb with
  | FileBackend_nil => panic
  | FileBackend_of tab v => WriteFile_of tab v fr path
  end.

(** [cw, ok := fb.(ContextWriter)]: [None] is [ok == false]. The assertion
    holds when the dynamic type has the method; it fails on nil. *)
Definition as_ContextWriter (fb : FileBackend)
  : option (Ctx -> Reader -> string -> call World (Z * option error)) :=
  match fb with
  | FileBackend_nil => None
  | FileBackend_of tab v =>
      match WriteFileContext_of tab with
      | Some wfc => Some (wfc v)
      | None => None
      end
  end.

Definition TryWriteFileContext (fb : FileBackend) (ctx : Ctx)
    (fr : Reader) (path : string) : call World (Z * option error) :=
  match as_ContextWriter fb with
  | Some cw => cw ctx fr path
  | None => WriteFile fb fr path
  end.

(** s3store.go and localstore.go are outside this file: the S3 backend
    type, its constructor and the method sets of both backends are taken
    as given. *)
Context {S3FileBackend : Type}.
Variable s3_methods : methods (ptr S3FileBackend).
Variable local_methods : methods (ptr LocalFileBackend).
Variable NewS3FileBackend :
  FileBackendSettings -> call World (ptr S3FileBackend * option error).

Definition NewFileBackend (settings : FileBackendSettings)
  : call World (FileBackend * option error) :=
  if decide (DriverName settings = driverS3) then
    bind (NewS3FileBackend settings) (fun r =>
      match snd r with
      | Some err =>
          ret (FileBackend_nil,
               Some (errors_Wrap err "unable to connect to the s3 backend"))
      | None => ret (FileBackend_of s3_methods (fst r), None)
      end)
  else if decide (DriverName settings = driverLocal) then
    ret (FileBackend_of local_methods
           (Some {| directory := Directory settings |}), None)
  else
    ret (FileBackend_nil,
         Some (errors_New "no valid filestorage driver found")).

End Backends.

(** The pointers a non-local configuration has dereferenced. *)
Definition s3_pointers_set (fs : model.FileSettings) : Prop :=
  is_Some (model.DriverName fs) ∧
  is_Some (model.AmazonS3AccessKeyId fs) ∧
  is_Some (model.AmazonS3SecretAccessKey fs) ∧
  is_Some (model.AmazonS3Bucket fs) ∧
  is_Some (model.AmazonS3PathPrefix fs) ∧
  is_Some (model.AmazonS3Region fs) ∧
  is_Some (model.AmazonS3Endpoint fs) ∧
  is_Some (model.AmazonS3RequestTimeoutMilliseconds fs).

End filestore.

(** * The platform service

    The service (construction, database topology, metrics controller,
    goroutine tracker) is known here through its tests and its
    specification: the definitions of this module follow the specification,
    sections 3 to 6, and say so one by one. *)

Module platform.

(** ** License gate *)

(** Modelled from the spec: the license held by the License Gate, which is
    missing from the sources. A license is optional; the one capability the
    topology consults is the read-replica entitlement. *)
Record License : Type := mkLicense { ReadReplicas : bool }.

(** Modelled from the spec: "If the current license is absent or lacks the
    read-replica entitlement" is the negation of this test. *)
Definition entitled (license : option License) : bool :=
  match license with
  | Some l => ReadReplicas l
  | None => false
  end.

(** ** Configuration snapshot *)

(** Modelled from the spec: the fields of the configuration snapshot that the
    core reads, SqlSettings.{DataSource, DataSourceReplicas,
    DataSourceSearchReplicas} and MetricsSettings.Enable, with the address the
    metrics listener binds to. *)
Record SqlSettings : Type := mkSqlSettings {
  DataSource : string;
  DataSourceReplicas : list string;
  DataSourceSearchReplicas : list string
}.

(** Modelled from the spec: [MetricsSettings.Enable], the one metrics field
    the core consumes, and the configured bind address of section 6. *)
Record MetricsSettings : Type := mkMetricsSettings {
  Enable : bool;
  ListenAddress : string
}.

(** Modelled from the spec: the configuration snapshot, an immutable value
    replaced wholesale on save. *)
Record Config : Type := mkConfig {
  Sql : SqlSettings;
  Metrics : MetricsSettings
}.

(** ** Database topology manager *)

(** Modelled from the spec: connection pools, missing from the sources. The
    pools opened so far are kept in order of opening, each with the DSN it
    was opened for; a handle is the position of its pool, so two handles are
    the same handle exactly when they are equal. *)
Definition Handle : Type := nat.

(** Modelled from the spec: opening one pool. [connect dsn] tells whether a
    pool can be opened for [dsn]; a failure is a fatal startup error
    ([None]). *)
Definition open_pool (connect : string -> bool) (dsn : string)
    (pools : list string) : option (Handle * list string) :=
  if connect dsn then Some (length pools, (pools ++ [dsn])%list) else None.

(** Modelled from the spec: "open one pool per configured DSN". *)
Fixpoint open_pools (connect : string -> bool) (dsns : list string)
    (pools : list string) : option (list Handle * list string) :=
  match dsns with
  | [] => Some ([], pools)
  | dsn :: rest =>
      '(h, pools1) ← open_pool connect dsn pools;
      '(hs, pools2) ← open_pools connect rest pools1;
      Some (h :: hs, pools2)
  end.

(** Modelled from the spec: the topology [Initialize] returns, the master
    with the read-replica and search-replica pools, beside the pools that
    are open. *)
Record SqlStore : Type := mkSqlStore {
  pools : list string;
  master : Handle;
  replicas : list Handle;
  searchReplicas : list Handle
}.

(** Modelled from the spec: section 4.1, [Initialize(snapshot, license)].
    The master pool always exists. Without the entitlement no pool is opened
    for the listed DSNs and reads fall to the master; with it, one pool is
    opened per configured DSN, read replicas and search replicas each from
    their own list. *)
Definition Initialize (connect : string -> bool) (snapshot : SqlSettings)
    (license : option License) : option SqlStore :=
  '(m, pools0) ← open_pool connect (DataSource snapshot) [];
  if entitled license then
    '(rs, pools1) ← open_pools connect (DataSourceReplicas snapshot) pools0;
    '(ss, pools2) ←
      open_pools connect (DataSourceSearchReplicas snapshot) pools1;
    Some {| pools := pools2; master := m;
            replicas := rs; searchReplicas := ss |}
  else
    Some {| pools := pools0; master := m;
            replicas := []; searchReplicas := [] |}.

(** Modelled from the spec: the selection policy that directs a read to one
    of the replica pools is not prescribed; [choice] is whatever the policy
    draws (a random number, a round-robin counter). With no replica pool the
    read goes to the master. *)
Definition select (hs : list Handle) (fallback : Handle) (choice : nat)
  : Handle :=
  default fallback (hs !! (choice `mod` length hs)).

(** Modelled from the spec: [GetMaster()], [GetReplica()] and
    [GetSearchReplica()], "simple accessors with no side effects". *)
Definition GetMaster (s : SqlStore) : Handle := master s.

Definition GetReplica (s : SqlStore) (choice : nat) : Handle :=
  select (replicas s) (master s) choice.

Definition GetSearchReplica (s : SqlStore) (choice : nat) : Handle :=
  select (searchReplicas s) (master s) choice.

(** ** Metrics controller *)

(** Modelled from the spec: the metrics listener state of section 3,
    {absent, stopped, listening}, with the terminal state of section 4.2. *)
Inductive Listener : Type := Absent | Stopped | Listening | Terminated.

(** Modelled from the spec: the platform service, an orchestrator owning the
    configuration snapshot, the license cell, the database topology and the
    metrics listener. *)
Record PlatformService : Type := mkPlatformService {
  config : Config;
  licenseValue : option License;
  sqlStore : SqlStore;
  metrics : Listener
}.

(** Modelled from the spec: the listener bind failure of section 4.2, which
    is reported to the caller that triggered the start. *)
Inductive BindError : Type := AddressInUse (addr : string).

(** Modelled from the spec: [resetMetrics()], section 4.2: dormant unless
    the controller was enabled at startup; otherwise stop if listening, then
    start a new listener on the configured address when the current
    configuration enables metrics. [can_bind] tells which addresses the
    listener can bind at this moment; a bind failure is reported and leaves
    the controller stopped. *)
Definition resetMetrics (can_bind : string -> bool) (ps : PlatformService)
  : PlatformService * option BindError :=
  let set l :=
    {| config := config ps; licenseValue := licenseValue ps;
       sqlStore := sqlStore ps; metrics := l |} in
  match metrics ps with
  | Absent | Terminated => (ps, None)
  | Stopped | Listening =>
      if Enable (Metrics (config ps)) then
        let addr := ListenAddress (Metrics (config ps)) in
        if can_bind addr then (set Listening, None)
        else (set Stopped, Some (AddressInUse addr))
      else (set Stopped, None)
  end.

(** Modelled from the spec: construction. The topology is derived once, from
    the snapshot and the license supplied before construction completes; the
    metrics controller exists only with the enabling option. A failure to
    open a pool aborts construction ([None]). *)
Definition New (connect can_bind : string -> bool) (startMetrics : bool)
    (license : option License) (cfg : Config) : option PlatformService :=
  store ← Initialize connect (Sql cfg) license;
  Some (fst (resetMetrics can_bind
               {| config := cfg; licenseValue := license; sqlStore := store;
                  metrics := if startMetrics then Stopped else Absent |})).

(** Modelled from the spec: a configuration save replaces the snapshot
    wholesale and, when it flips [MetricsSettings.Enable], applies the new
    listener state before it returns. The topology is not derived again. *)
Definition SaveConfig (can_bind : string -> bool) (ps : PlatformService)
    (newCfg : Config) : PlatformService * option BindError :=
  let ps' :=
    {| config := newCfg; licenseValue := licenseValue ps;
       sqlStore := sqlStore ps; metrics := metrics ps |} in
  if bool_decide (Enable (Metrics (config ps)) = Enable (Metrics newCfg))
  then (ps', None)
  else resetMetrics can_bind ps'.

(** Modelled from the spec: section 6, "plain HTTP GET on the configured
    bind address; returns success while listening, connection failure while
    stopped". *)
Inductive GetResult : Type := Response (status : Z) | ConnectionFailure.

Definition StatusOK : Z := 200.

Definition http_Get (ps : PlatformService) : GetResult :=
  match metrics ps with
  | Listening => Response StatusOK
  | _ => ConnectionFailure
  end.

(** Modelled from the spec: successive configuration saves, oldest first,
    each with the addresses that can be bound when it is made; "most recent
    committed value wins". *)
Fixpoint saves (ps : PlatformService)
    (l : list ((string -> bool) * Config)) : PlatformService :=
  match l with
  | [] => ps
  | (can_bind, cfg) :: rest => saves (fst (SaveConfig can_bind ps cfg)) rest
  end.

(** ** Goroutine tracker and shutdown coordinator *)

(** Modelled from the spec: a unit of background work, missing from the
    sources with the tracker. It runs for some time, counted in scheduler
    ticks, and then ends in one of the three ways of section 4.3: success, a
    returned error, or a panic. *)
Inductive Exit : Type := Succeeded | Failed | Panicked.

Record Work : Type := mkWork { duration : nat; ending : Exit }.

(** Modelled from the spec: a tracked task, a launched unit of work that is
    still running, with the ticks it has left, or has completed. *)
Inductive Task : Type :=
| Running (ticks : nat) (e : Exit)
| Completed (e : Exit).

(** Modelled from the spec: the thread that owns the service. It launches
    its units of work one after the other, then calls [Shutdown()], which
    blocks, and at last returns. *)
Inductive Caller : Type :=
| Launching (todo : list Work)
| InShutdown
| Returned.

(** Modelled from the spec: the outstanding-task counter of section 3, an
    integer incremented on launch and decremented on completion, beside the
    units launched so far and the caller. *)
Record Tracker : Type := mkTracker {
  goroutineCount : Z;
  tasks : list Task;
  caller : Caller
}.

(** Modelled from the spec: the counter "equals zero before ... the
    service's active lifetime"; nothing is launched yet. *)
Definition started (todo : list Work) : Tracker :=
  {| goroutineCount := 0; tasks := []; caller := Launching todo |}.

(** Modelled from the spec: the scheduling model of section 5, parallel
    workers with no cooperative assumption. Either the caller or the [i]-th
    launched unit makes the next move, in any interleaving. *)
Inductive Move : Type := CallerMoves | TaskMoves (i : nat).

(** Modelled from the spec: one atomic move, section 4.3. [None] is a move
    that cannot be made now: a caller blocked in [Shutdown()], or a unit that
    does not exist or has ended.
    - [launch] registers the unit (the counter goes up) before it begins and
      never blocks;
    - a unit deregisters (the counter goes down) on completion, however it
      ends;
    - [Shutdown()] returns once the counter is zero, and blocks until then. *)
Definition exec (m : Move) (s : Tracker) : option Tracker :=
  match m with
  | CallerMoves =>
      match caller s with
      | Launching (w :: todo) =>
          Some {| goroutineCount := goroutineCount s + 1;
                  tasks := (tasks s ++ [Running (duration w) (ending w)])%list;
                  caller := Launching todo |}
      | Launching [] =>
          Some {| goroutineCount := goroutineCount s; tasks := tasks s;
                  caller := InShutdown |}
      | InShutdown =>
          if (goroutineCount s =? 0)%Z then
            Some {| goroutineCount := goroutineCount s; tasks := tasks s;
                    caller := Returned |}
          else None
      | Returned => None
      end
  | TaskMoves i =>
      match tasks s !! i with
      | Some (Running (S n) e) =>
          Some {| goroutineCount := goroutineCount s;
                  tasks := <[i := Running n e]> (tasks s);
                  caller := caller s |}
      | Some (Running O e) =>
          Some {| goroutineCount := goroutineCount s - 1;
                  tasks := <[i := Completed e]> (tasks s);
                  caller := caller s |}
      | Some (Completed _) | None => None
      end
  end.

(** Modelled from the spec: a run of the service under a schedule, the
    order in which the threads move. A schedule with a move that cannot be
    made is no run ([None]). *)
Fixpoint run (schedule : list Move) (s : Tracker) : option Tracker :=
  match schedule with
  | [] => Some s
  | m :: rest => s' ← exec m s; run rest s'
  end.

Definition completed (t : Task) : Prop :=
  match t with
  | Completed _ => True
  | Running _ _ => False
  end.

(** The moves a unit of work has left. *)
Definition task_moves (t : Task) : nat :=
  match t with
  | Running n _ => S n
  | Completed _ => 0
  end.

(** The moves a state has left: what the caller still has to do, and what
    the units launched so far still have to do. *)
Definition moves_left (s : Tracker) : nat :=
  match caller s with
  | Launching todo => 2 + sum_list_with (fun w => 2 + duration w) todo
  | InShutdown => 1
  | Returned => 0
  end + sum_list_with task_moves (tasks s).

(** The units of work that are still running. *)
Definition running (ts : list Task) : nat :=
  sum_list_with (λ t, match t with Running _ _ => 1 | Completed _ => 0 end) ts.

(** The units of work the caller has not launched yet. *)
Definition pending (c : Caller) : nat :=
  match c with
  | Launching todo => length todo
  | InShutdown | Returned => 0
  end.

(** What holds in every state a schedule can reach: the counter is the
    number of running units, every unit of work is launched or pending, and
    a caller that is back from [Shutdown()] saw the counter at zero. *)
Definition tracked (todo : list Work) (s : Tracker) : Prop :=
  goroutineCount s = Z.of_nat (running (tasks s)) ∧
  (length (tasks s) + pending (caller s))%nat = length todo ∧
  (caller s = Returned → goroutineCount s = 0%Z).

End platform.

(** * Concrete inputs

    Small worlds, backends and configurations on which the definitions above
    are run. *)

Module fixtures.

Import filestore.

(** A world for running the file store: the files written so far, newest
    first, each a path and its content. A reader is the text it yields; a
    context is cancelled or not. *)
Definition Files : Type := list (string * string).

(** A local backend writes under its directory and has no
    [WriteFileContext]. A method called through a nil pointer panics. *)
Definition local_methods : @methods string bool Files (ptr LocalFileBackend) :=
  {| WriteFile_of := fun b fr path w =>
       match b with
       | Some b =>
           Some ((Z.of_nat (String.length fr), None),
                 (directory b +:+ path, fr) :: w)
       | None => None
       end;
     WriteFileContext_of := None |}.

(** An S3 backend, here its bucket name, has [WriteFileContext]: a write
    under a cancelled context writes nothing and reports it. *)
Definition s3_write (b : ptr string) (fr path : string)
  : call Files (Z * option error) :=
  fun w =>
    match b with
    | Some bucket =>
        Some ((Z.of_nat (String.length fr), None),
              (bucket +:+ "/" +:+ path, fr) :: w)
    | None => None
    end.

Definition s3_methods : @methods string bool Files (ptr string) :=
  {| WriteFile_of := s3_write;
     WriteFileContext_of := Some (fun b (cancelled : bool) fr path =>
       if cancelled then ret (0%Z, Some (errors_New "context canceled"))
       else s3_write b fr path) |}.

(** A stand-in for the S3 constructor: it insists on a bucket. *)
Definition NewS3FileBackend (settings : FileBackendSettings)
  : call Files (ptr string * option error) :=
  if decide (AmazonS3Bucket settings = "") then
    ret (None, Some (errors_New "missing s3 bucket settings"))
  else ret (Some (AmazonS3Bucket settings), None).

Definition with_driver (driver dir : string) : FileBackendSettings :=
  {| DriverName := driver; Directory := dir;
     AmazonS3AccessKeyId := ""; AmazonS3SecretAccessKey := "";
     AmazonS3Bucket := ""; AmazonS3PathPrefix := "";
     AmazonS3Region := ""; AmazonS3Endpoint := "";
     AmazonS3SSL := false; AmazonS3SignV2 := false;
     AmazonS3SSE := false; AmazonS3Trace := false;
     SkipVerify := false;
     AmazonS3RequestTimeoutMilliseconds := 0%Z |}.

(** An S3 configuration that asks for encryption and leaves the other three
    flags nil. *)
Definition s3_config : model.FileSettings :=
  {| model.DriverName := Some "amazons3";
     model.Directory := Some "./data/";
     model.AmazonS3AccessKeyId := Some "key";
     model.AmazonS3SecretAccessKey := Some "secret";
     model.AmazonS3Bucket := Some "bucket";
     model.AmazonS3PathPrefix := Some "";
     model.AmazonS3Region := Some "us-east-1";
     model.AmazonS3Endpoint := Some "";
     model.AmazonS3SSL := None;
     model.AmazonS3SignV2 := None;
     model.AmazonS3SSE := Some true;
     model.AmazonS3Trace := None;
     model.AmazonS3RequestTimeoutMilliseconds := Some 30000%Z |}.

(** A local configuration in which no S3 pointer is set. *)
Definition local_config : model.FileSettings :=
  {| model.DriverName := Some "local";
     model.Directory := Some "./data/";
     model.AmazonS3AccessKeyId := None;
     model.AmazonS3SecretAccessKey := None;
     model.AmazonS3Bucket := None;
     model.AmazonS3PathPrefix := None;
     model.AmazonS3Region := None;
     model.AmazonS3Endpoint := None;
     model.AmazonS3SSL := None;
     model.AmazonS3SignV2 := None;
     model.AmazonS3SSE := Some true;
     model.AmazonS3Trace := None;
     model.AmazonS3RequestTimeoutMilliseconds := None |}.






(** The configuration of the service's tests: one read replica and one
    search replica, both on the master's data source. *)
Definition replicated_config : platform.Config :=
  {| platform.Sql :=
       {| platform.DataSource := "postgres://db/mattermost";
          platform.DataSourceReplicas := ["postgres://db/mattermost"];
          platform.DataSourceSearchReplicas := ["postgres://db/mattermost"] |};
     platform.Metrics :=
       {| platform.Enable := false; platform.ListenAddress := ":8067" |} |}.

(** Every data source can be connected to, every address bound. *)
Definition always : string → bool := λ _, true.


(** Two units of work, one of which panics, under one interleaving: the
    caller launches both and calls [Shutdown()]; the second unit ends, the
    first runs and ends; [Shutdown()] returns. *)
Definition two_units : list platform.Work :=
  [platform.mkWork 1 platform.Panicked; platform.mkWork 0 platform.Succeeded].

Definition one_interleaving : list platform.Move :=
  [platform.CallerMoves; platform.CallerMoves; platform.CallerMoves;
   platform.TaskMoves 1; platform.TaskMoves 0; platform.TaskMoves 0;
   platform.CallerMoves].

End fixtures.

(** * Properties of the file store *)

Section FileStoreProperties.

Import filestore.

(** ** CheckMandatoryS3Fields *)

Lemma CheckMandatoryS3Fields_missing_bucket (settings : FileBackendSettings) :
  AmazonS3Bucket settings = "" →
  CheckMandatoryS3Fields settings =
    (settings, Some (errors_New "missing s3 bucket settings")).
Proof.
  intros Hb. unfold CheckMandatoryS3Fields.
  destruct (decide (AmazonS3Bucket settings = "")) as [_|Hne]; [done|].
  by destruct Hne.
Qed.

Lemma CheckMandatoryS3Fields_default_endpoint (settings : FileBackendSettings) :
  AmazonS3Bucket settings ≠ "" →
  AmazonS3Endpoint settings = "" →
  CheckMandatoryS3Fields settings =
    (set_AmazonS3Endpoint "s3.amazonaws.com" settings, None).
Proof.
  intros Hb He. unfold CheckMandatoryS3Fields.
  destruct (decide (AmazonS3Bucket settings = "")) as [Heq|_]; [by destruct Hb|].
  destruct (decide (AmazonS3Endpoint settings = "")) as [_|Hne]; [done|].
  by destruct Hne.
Qed.

Lemma CheckMandatoryS3Fields_untouched (settings : FileBackendSettings) :
  AmazonS3Bucket settings ≠ "" →
  AmazonS3Endpoint settings ≠ "" →
  CheckMandatoryS3Fields settings = (settings, None).
Proof.
  intros Hb He. unfold CheckMandatoryS3Fields.
  destruct (decide (AmazonS3Bucket settings = "")) as [Heq|_]; [by destruct Hb|].
  destruct (decide (AmazonS3Endpoint settings = "")) as [Heq|_]; [by destruct He|].
  done.
Qed.


(** ** NewFileBackendSettingsFromConfig *)

Variable ImageDriverLocal : string.

(** On a non-local configuration the constructor returns exactly when none
    of the pointers it dereferences is nil. *)
Lemma NewFileBackendSettingsFromConfig_returns
    (fs : model.FileSettings) (enableComplianceFeature skipVerify : bool) :
  model.DriverName fs ≠ Some ImageDriverLocal →
  is_Some (NewFileBackendSettingsFromConfig ImageDriverLocal (Some fs)
             enableComplianceFeature skipVerify) ↔
  s3_pointers_set fs.
Proof.
  intros Hd. unfold NewFileBackendSettingsFromConfig, s3_pointers_set.
  destruct fs as [dn dir ak sk bk pp rg ep ssl sv2 sse tr tmo]; simpl in *.
  destruct dn as [dn|]; simpl.
  - destruct (decide (dn = ImageDriverLocal)) as [->|_]; [by destruct Hd|].
    destruct ak, sk, bk, pp, rg, ep, tmo; simpl;
      (split;
       [ intros [x Hx]; first [ discriminate Hx | repeat split; by eexists ]
       | intros (_ & [? E1] & [? E2] & [? E3] & [? E4] & [? E5] & [? E6] & [? E7]);
         first [ congruence | by eexists ] ]).
  - split; [intros [x Hx]; discriminate Hx | intros [[x Hx] _]; discriminate Hx].
Qed.

(** The four flags of the settings built from a non-local configuration. *)
Lemma NewFileBackendSettingsFromConfig_flags
    (fs : model.FileSettings) (enableComplianceFeature skipVerify : bool)
    (s : FileBackendSettings) :
  model.DriverName fs ≠ Some ImageDriverLocal →
  NewFileBackendSettingsFromConfig ImageDriverLocal (Some fs)
    enableComplianceFeature skipVerify = Some s →
  AmazonS3SSL s = nil_or_true (model.AmazonS3SSL fs) ∧
  AmazonS3SignV2 s = set_and_true (model.AmazonS3SignV2 fs) ∧
  AmazonS3SSE s =
    set_and_true (model.AmazonS3SSE fs) && enableComplianceFeature ∧
  AmazonS3Trace s = set_and_true (model.AmazonS3Trace fs).
Proof.
  intros Hd. unfold NewFileBackendSettingsFromConfig.
  destruct fs as [dn dir ak sk bk pp rg ep ssl sv2 sse tr tmo]; simpl in *.
  destruct dn as [dn|]; simpl; [|discriminate].
  destruct (decide (dn = ImageDriverLocal)) as [->|_]; [by destruct Hd|].
  destruct ak, sk, bk, pp, rg, ep, tmo; simpl; try discriminate.
  intros [= <-]. done.
Qed.

(** C9. For a non-local configuration, the settings the constructor returns
    have [AmazonS3SSE] set if and only if the configuration's pointer is
    non-nil and points to true and the compliance feature is enabled; without
    the compliance feature the flag is false whatever the configuration asks
    for. The constructor does return settings whenever the pointers it
    dereferences are set. *)
Theorem AmazonS3SSE_compliance_gated
    (fs : model.FileSettings) (enableComplianceFeature skipVerify : bool) :
  model.DriverName fs ≠ Some ImageDriverLocal →
  (s3_pointers_set fs →
   is_Some (NewFileBackendSettingsFromConfig ImageDriverLocal (Some fs)
              enableComplianceFeature skipVerify)) ∧
  ∀ s : FileBackendSettings,
    NewFileBackendSettingsFromConfig ImageDriverLocal (Some fs)
      enableComplianceFeature skipVerify = Some s →
    (AmazonS3SSE s = true ↔
       model.AmazonS3SSE fs = Some true ∧ enableComplianceFeature = true) ∧
    (enableComplianceFeature = false → AmazonS3SSE s = false).
Proof.
  intros Hd. split.
  - intros Hp. by apply NewFileBackendSettingsFromConfig_returns.
  - intros s Hs.
    destruct (NewFileBackendSettingsFromConfig_flags _ _ _ _ Hd Hs)
      as (_ & _ & Hsse & _).
    rewrite Hsse. split.
    + destruct (model.AmazonS3SSE fs) as [[]|], enableComplianceFeature;
        simpl; intuition congruence.
    + intros ->. apply andb_false_r.
Qed.

(** C10. For a non-local configuration, the settings the constructor returns
    have [AmazonS3SSL] true when the configuration's pointer is nil and equal
    to its pointee otherwise, while [AmazonS3SignV2] and [AmazonS3Trace] are
    true only for a non-nil pointer to true: nil gives false. *)
Theorem nil_tolerant_flags
    (fs : model.FileSettings) (enableComplianceFeature skipVerify : bool) :
  model.DriverName fs ≠ Some ImageDriverLocal →
  (s3_pointers_set fs →
   is_Some (NewFileBackendSettingsFromConfig ImageDriverLocal (Some fs)
              enableComplianceFeature skipVerify)) ∧
  ∀ s : FileBackendSettings,
    NewFileBackendSettingsFromConfig ImageDriverLocal (Some fs)
      enableComplianceFeature skipVerify = Some s →
    (model.AmazonS3SSL fs = None → AmazonS3SSL s = true) ∧
    (∀ b, model.AmazonS3SSL fs = Some b → AmazonS3SSL s = b) ∧
    (AmazonS3SignV2 s = true ↔ model.AmazonS3SignV2 fs = Some true) ∧
    (AmazonS3Trace s = true ↔ model.AmazonS3Trace fs = Some true) ∧
    (model.AmazonS3SignV2 fs = None → AmazonS3SignV2 s = false) ∧
    (model.AmazonS3Trace fs = None → AmazonS3Trace s = false).
Proof.
  intros Hd. split.
  - intros Hp. by apply NewFileBackendSettingsFromConfig_returns.
  - intros s Hs.
    destruct (NewFileBackendSettingsFromConfig_flags _ _ _ _ Hd Hs)
      as (Hssl & Hsign & _ & Htrace).
    rewrite Hssl, Hsign, Htrace.
    destruct (model.AmazonS3SSL fs) as [[]|],
      (model.AmazonS3SignV2 fs) as [[]|],
      (model.AmazonS3Trace fs) as [[]|]; simpl; intuition congruence.
Qed.

End FileStoreProperties.

(** ** NewFileBackend and TryWriteFileContext *)

Section BackendProperties.

Import filestore.

Context {Reader Ctx World S3FileBackend : Type}.
Variable s3_methods : @methods Reader Ctx World (ptr S3FileBackend).
Variable local_methods : @methods Reader Ctx World (ptr LocalFileBackend).
Variable NewS3FileBackend :
  FileBackendSettings → call World (ptr S3FileBackend * option error).

Local Abbreviation NewFileBackend :=
  (NewFileBackend s3_methods local_methods NewS3FileBackend).

(** C5. For settings whose driver name is neither "amazons3" nor "local",
    [NewFileBackend] returns the nil backend with a non-nil error, from any
    state of the world and without touching it: no backend is built as a
    fallback, and the S3 constructor is not called. *)
Theorem NewFileBackend_unrecognized_driver
    (settings : FileBackendSettings) (w : World) :
  DriverName settings ≠ "amazons3" →
  DriverName settings ≠ "local" →
  NewFileBackend settings w =
    Some ((FileBackend_nil,
           Some (errors_New "no valid filestorage driver found")), w).
Proof.
  intros Hs3 Hlocal. unfold filestore.NewFileBackend.
  destruct (decide (DriverName settings = driverS3)) as [Heq|_];
    [by destruct Hs3|].
  destruct (decide (DriverName settings = driverLocal)) as [Heq|_];
    [by destruct Hlocal|].
  reflexivity.
Qed.

(** C8. For settings whose driver name is "local", [NewFileBackend] returns
    a non-nil pointer to a [LocalFileBackend] whose directory is the
    settings' [Directory], with a nil error, whatever the S3 fields hold:
    none of them is read, and the world is left as it was. *)
Theorem NewFileBackend_local (settings : FileBackendSettings) (w : World) :
  DriverName settings = "local" →
  NewFileBackend settings w =
    Some ((FileBackend_of local_methods
             (Some {| directory := Directory settings |}), None), w).
Proof.
  intros Hlocal. unfold filestore.NewFileBackend. rewrite Hlocal.
  destruct (decide ("local" = driverS3)) as [Heq|_]; [discriminate Heq|].
  destruct (decide ("local" = driverLocal)) as [_|Hne]; [reflexivity|].
  by destruct Hne.
Qed.

(** The S3 branch, for comparison: the constructor of s3store.go decides. *)
Lemma NewFileBackend_s3 (settings : FileBackendSettings) (w : World) :
  DriverName settings = "amazons3" →
  NewFileBackend settings w =
    match NewS3FileBackend settings w with
    | None => None
    | Some ((_, Some err), w') =>
        Some ((FileBackend_nil,
               Some (errors_Wrap err "unable to connect to the s3 backend")),
              w')
    | Some ((backend, None), w') =>
        Some ((FileBackend_of s3_methods backend, None), w')
    end.
Proof.
  intros Hs3. unfold filestore.NewFileBackend, bind. rewrite Hs3.
  destruct (decide ("amazons3" = driverS3)) as [_|Hne]; [|by destruct Hne].
  destruct (NewS3FileBackend settings w) as [[[b [e|]] w']|]; reflexivity.
Qed.


(** C6. [TryWriteFileContext] on a backend whose dynamic type has a
    [WriteFileContext] method is that method called on the backend with the
    given context, reader and path. On a backend whose dynamic type has no
    such method it is the [WriteFile] method of that type, called on the
    backend with the same reader and path, whatever the context; on the nil
    interface that call panics, as every method call on nil does. In both
    cases two calls that differ in the context alone are the same call. *)
Theorem TryWriteFileContext_spec
    (fb : @FileBackend Reader Ctx World) (ctx : Ctx) (fr : Reader)
    (path : string) :
  (∀ (T : Type) (tab : methods T) (v : T) wfc,
     fb = FileBackend_of tab v →
     WriteFileContext_of tab = Some wfc →
     TryWriteFileContext fb ctx fr path = wfc v ctx fr path) ∧
  (∀ (T : Type) (tab : methods T) (v : T),
     fb = FileBackend_of tab v →
     WriteFileContext_of tab = None →
     ∀ ctx' : Ctx,
       TryWriteFileContext fb ctx' fr path = WriteFile_of tab v fr path) ∧
  (fb = FileBackend_nil →
   ∀ (ctx' : Ctx) (w : World), TryWriteFileContext fb ctx' fr path w = None) ∧
  (as_ContextWriter fb = None →
   TryWriteFileContext fb ctx fr path = WriteFile fb fr path ∧
   ∀ ctx' : Ctx,
     TryWriteFileContext fb ctx' fr path = TryWriteFileContext fb ctx fr path) ∧
  (as_ContextWriter fb = None ↔
   match fb with
   | FileBackend_nil => True
   | FileBackend_of tab _ => WriteFileContext_of tab = None
   end).
Proof.
  split; [|split; [|split; [|split]]].
  - intros T tab v wfc -> Hm. unfold TryWriteFileContext, as_ContextWriter.
    by rewrite Hm.
  - intros T tab v -> Hm ctx'. unfold TryWriteFileContext, as_ContextWriter.
    by rewrite Hm.
  - intros -> ctx' w. reflexivity.
  - intros Hno. unfold TryWriteFileContext. rewrite Hno. done.
  - destruct fb as [|T tab v]; simpl; [done|].
    destruct (WriteFileContext_of tab); split; intros H; congruence.
Qed.

End BackendProperties.


Lemma s3_config_pointers_set :
  filestore.s3_pointers_set fixtures.s3_config.
Proof. repeat split; by eexists. Defined.

Lemma NewFileBackend_unrecognized_driver_witness :
  filestore.NewFileBackend fixtures.s3_methods fixtures.local_methods
    fixtures.NewS3FileBackend (fixtures.with_driver "azure" "./data/") [] =
  Some ((filestore.FileBackend_nil,
         Some (errors_New "no valid filestorage driver found")), []).
Proof.
  apply (NewFileBackend_unrecognized_driver fixtures.s3_methods
           fixtures.local_methods fixtures.NewS3FileBackend
           (fixtures.with_driver "azure" "./data/") []);
    simpl; discriminate.
Defined.

Lemma NewFileBackend_local_witness :
  filestore.NewFileBackend fixtures.s3_methods fixtures.local_methods
    fixtures.NewS3FileBackend (fixtures.with_driver "local" "./data/") [] =
  Some ((filestore.FileBackend_of fixtures.local_methods
           (Some {| filestore.directory := "./data/" |}), None), []).
Proof.
  apply (NewFileBackend_local fixtures.s3_methods fixtures.local_methods
           fixtures.NewS3FileBackend
           (fixtures.with_driver "local" "./data/") []).
  reflexivity.
Defined.

Lemma AmazonS3SSE_compliance_gated_witness :
  (∃ s, filestore.NewFileBackendSettingsFromConfig "local"
          (Some fixtures.s3_config) true false = Some s ∧
        filestore.AmazonS3SSE s = true) ∧
  (∃ s, filestore.NewFileBackendSettingsFromConfig "local"
          (Some fixtures.s3_config) false false = Some s ∧
        filestore.AmazonS3SSE s = false).
Proof.
  split.
  - destruct (AmazonS3SSE_compliance_gated "local" fixtures.s3_config true false)
      as [Hret Hall]; [simpl; discriminate|].
    destruct (Hret s3_config_pointers_set) as [s Hs].
    exists s. split; [exact Hs|].
    apply (Hall s Hs). split; reflexivity.
  - destruct (AmazonS3SSE_compliance_gated "local" fixtures.s3_config false false)
      as [Hret Hall]; [simpl; discriminate|].
    destruct (Hret s3_config_pointers_set) as [s Hs].
    exists s. split; [exact Hs|].
    apply (Hall s Hs). reflexivity.
Defined.

Lemma nil_tolerant_flags_witness :
  ∃ s, filestore.NewFileBackendSettingsFromConfig "local"
         (Some fixtures.s3_config) true false = Some s ∧
       filestore.AmazonS3SSL s = true ∧
       filestore.AmazonS3SignV2 s = false ∧
       filestore.AmazonS3Trace s = false.
Proof.
  destruct (nil_tolerant_flags "local" fixtures.s3_config true false)
    as [Hret Hall]; [simpl; discriminate|].
  destruct (Hret s3_config_pointers_set) as [s Hs].
  exists s. split; [exact Hs|].
  destruct (Hall s Hs) as (Hssl & _ & _ & _ & Hsign & Htrace).
  split; [apply Hssl; reflexivity|].
  split; [apply Hsign; reflexivity | apply Htrace; reflexivity].
Defined.


(** The checks of the source on concrete settings: an empty bucket is
    refused, an empty endpoint is filled in. *)
Example CheckMandatoryS3Fields_empty_bucket :
  filestore.CheckMandatoryS3Fields (fixtures.with_driver "amazons3" "") =
  (fixtures.with_driver "amazons3" "",
   Some (errors_New "missing s3 bucket settings")).
Proof. reflexivity. Qed.

(** A write through the helper: the S3 backend sees the context, the local
    backend does not. *)
Example TryWriteFileContext_s3_cancelled :
  filestore.TryWriteFileContext
    (filestore.FileBackend_of fixtures.s3_methods (Some "bucket"))
    true "hello" "export.zip" [] =
  Some ((0%Z, Some (errors_New "context canceled")), []).
Proof. reflexivity. Qed.

Example TryWriteFileContext_local_cancelled :
  filestore.TryWriteFileContext
    (filestore.FileBackend_of fixtures.local_methods
       (Some {| filestore.directory := "./data/" |}))
    true "hello" "export.zip" [] =
  Some ((5%Z, None), [("./data/export.zip", "hello")]).
Proof. reflexivity. Qed.

(** * Properties of the platform service *)

Section TopologyProperties.

Import platform.
Local Open Scope nat_scope.

Variable connect : string → bool.

Lemma open_pool_fresh (dsn : string) (pools0 : list string) (h : Handle)
    (pools1 : list string) :
  open_pool connect dsn pools0 = Some (h, pools1) →
  h = length pools0 ∧ pools1 = (pools0 ++ [dsn])%list.
Proof.
  unfold open_pool. destruct (connect dsn); [|discriminate].
  intros [= <- <-]. done.
Qed.

(** Opening pools hands out one fresh handle per DSN, past every pool that
    was already open. *)
Lemma open_pools_fresh (dsns : list string) :
  ∀ (pools0 : list string) (hs : list Handle) (pools1 : list string),
    open_pools connect dsns pools0 = Some (hs, pools1) →
    length hs = length dsns ∧
    Forall (λ h : Handle, length pools0 ≤ h) hs ∧
    pools1 = (pools0 ++ dsns)%list.
Proof.
  induction dsns as [|dsn rest IH]; intros pools0 hs pools1; simpl.
  - intros [= <- <-]. by rewrite app_nil_r.
  - destruct (open_pool connect dsn pools0) as [[h p]|] eqn:Hopen;
      simpl; [|discriminate].
    destruct (open_pools connect rest p) as [[hs' p']|] eqn:Hrest;
      simpl; [|discriminate].
    intros [= <- <-].
    apply open_pool_fresh in Hopen as [-> ->].
    destruct (IH _ _ _ Hrest) as (Hlen & Hall & ->).
    split; [by rewrite <- Hlen|]. split.
    + constructor; [done|].
      eapply Forall_impl; [exact Hall|]. simpl. intros h.
      rewrite length_app. simpl. lia.
    + by rewrite <- app_assoc.
Qed.

(** Pools open whenever every DSN can be connected to. *)
Lemma open_pools_succeeds (dsns : list string) :
  ∀ pools0 : list string,
    Forall (λ d, connect d = true) dsns →
    is_Some (open_pools connect dsns pools0).
Proof.
  induction dsns as [|dsn rest IH]; intros pools0 Hall; simpl; [by eexists|].
  inversion Hall as [|? ? Hd Hrest]; subst.
  unfold open_pool. rewrite Hd. simpl.
  destruct (IH (pools0 ++ [dsn])%list Hrest) as [[hs p] Hs].
  rewrite Hs. simpl. by eexists.
Qed.

Lemma select_nil (fallback : Handle) (choice : nat) :
  select [] fallback choice = fallback.
Proof. unfold select. by rewrite lookup_nil. Qed.

(** The policy's draw always lands on one of the pools it chooses from. *)
Lemma select_elem_of (hs : list Handle) (fallback : Handle) (choice : nat) :
  hs ≠ [] → select hs fallback choice ∈ hs.
Proof.
  intros Hne. unfold select.
  assert (Hlt : choice `mod` length hs < length hs).
  { apply Nat.mod_upper_bound. destruct hs; [done|]. simpl. lia. }
  destruct (lookup_lt_is_Some_2 hs _ Hlt) as [h Hh].
  rewrite Hh. simpl. by eapply list_elem_of_lookup_2.
Qed.

(** What [Initialize] builds, by entitlement. *)
Lemma Initialize_unentitled (snapshot : SqlSettings)
    (license : option License) (s : SqlStore) :
  entitled license = false →
  Initialize connect snapshot license = Some s →
  s = {| pools := [DataSource snapshot]; master := 0;
         replicas := []; searchReplicas := [] |}.
Proof.
  intros Hno. unfold Initialize.
  destruct (open_pool connect (DataSource snapshot) []) as [[m p]|] eqn:Hm;
    simpl; [|discriminate].
  apply open_pool_fresh in Hm as [-> ->]. rewrite Hno.
  by intros [= <-].
Qed.

Lemma Initialize_entitled (snapshot : SqlSettings)
    (license : option License) (s : SqlStore) :
  entitled license = true →
  Initialize connect snapshot license = Some s →
  master s = 0 ∧
  length (replicas s) = length (DataSourceReplicas snapshot) ∧
  length (searchReplicas s) = length (DataSourceSearchReplicas snapshot) ∧
  Forall (λ h : Handle, 1 ≤ h) (replicas s) ∧
  Forall (λ h : Handle, 1 ≤ h) (searchReplicas s) ∧
  pools s = (DataSource snapshot :: DataSourceReplicas snapshot ++
             DataSourceSearchReplicas snapshot)%list.
Proof.
  intros Hyes. unfold Initialize.
  destruct (open_pool connect (DataSource snapshot) []) as [[m p]|] eqn:Hm;
    simpl; [|discriminate].
  apply open_pool_fresh in Hm as [-> ->]. rewrite Hyes.
  destruct (open_pools connect (DataSourceReplicas snapshot) _)
    as [[rs p1]|] eqn:Hrs; simpl; [|discriminate].
  destruct (open_pools connect (DataSourceSearchReplicas snapshot) _)
    as [[ss p2]|] eqn:Hss; simpl; [|discriminate].
  intros [= <-]. simpl.
  destruct (open_pools_fresh _ _ _ _ Hrs) as (Hlr & Har & ->).
  destruct (open_pools_fresh _ _ _ _ Hss) as (Hls & Has & ->).
  simpl in *.
  split; [done|]. split; [done|]. split; [done|]. split; [done|].
  split; [|done].
  eapply Forall_impl; [exact Has|]. simpl. intros h. lia.
Qed.

(** A replica accessor answers the master exactly when there is no replica
    pool to choose from. *)
Lemma select_master (hs : list Handle) (choice : nat) :
  Forall (λ h : Handle, 1 ≤ h) hs →
  select hs 0 choice = 0 ↔ hs = [].
Proof.
  intros Hall. split.
  - intros Hsel. destruct hs as [|h hs']; [done|]. exfalso.
    assert (Hin : select (h :: hs') 0 choice ∈ h :: hs')
      by (by apply select_elem_of).
    rewrite Hsel in Hin.
    rewrite Forall_forall in Hall. specialize (Hall _ Hin). simpl in Hall. lia.
  - intros ->. apply select_nil.
Qed.

(** Resetting the metrics touches the listener and nothing else. *)
Lemma resetMetrics_frame (can_bind : string → bool) (ps : PlatformService) :
  config (fst (resetMetrics can_bind ps)) = config ps ∧
  licenseValue (fst (resetMetrics can_bind ps)) = licenseValue ps ∧
  sqlStore (fst (resetMetrics can_bind ps)) = sqlStore ps.
Proof.
  unfold resetMetrics.
  destruct (metrics ps); simpl; try done;
    destruct (Enable (Metrics (config ps))); simpl; try done;
    destruct (can_bind (ListenAddress (Metrics (config ps)))); done.
Qed.

(** What a constructed service holds. *)
Lemma New_inv (can_bind : string → bool) (startMetrics : bool)
    (license : option License) (cfg : Config) (ps : PlatformService) :
  New connect can_bind startMetrics license cfg = Some ps →
  config ps = cfg ∧ licenseValue ps = license ∧
  Initialize connect (Sql cfg) license = Some (sqlStore ps).
Proof.
  unfold New.
  destruct (Initialize connect (Sql cfg) license) as [store|]; simpl;
    [|discriminate].
  intros [= <-].
  destruct (resetMetrics_frame can_bind
              {| config := cfg; licenseValue := license; sqlStore := store;
                 metrics := if startMetrics then Stopped else Absent |})
    as (-> & -> & ->).
  done.
Qed.

(** Construction succeeds when every pool it has to open can be opened. *)
Lemma New_succeeds (can_bind : string → bool) (startMetrics : bool)
    (license : option License) (cfg : Config) :
  connect (DataSource (Sql cfg)) = true →
  Forall (λ d, connect d = true) (DataSourceReplicas (Sql cfg)) →
  Forall (λ d, connect d = true) (DataSourceSearchReplicas (Sql cfg)) →
  is_Some (New connect can_bind startMetrics license cfg).
Proof.
  intros Hm Hr Hs. unfold New, Initialize, open_pool. rewrite Hm. simpl.
  destruct (entitled license); simpl; [|by eexists].
  destruct (open_pools_succeeds (DataSourceReplicas (Sql cfg))
              [DataSource (Sql cfg)] Hr) as [[rs p1] Hrs].
  rewrite Hrs. simpl.
  destruct (open_pools_succeeds (DataSourceSearchReplicas (Sql cfg)) p1 Hs)
    as [[ss p2] Hss].
  rewrite Hss. simpl. by eexists.
Qed.

(** C1. On every service that construction returns, and for every draw of
    the selection policy: [GetReplica] is the master's handle exactly when
    no entitling license is present or no replica DSN is configured, so
    without the entitlement it is the master however many DSNs are listed,
    and with the entitlement and at least one DSN it is a different handle;
    the same holds for [GetSearchReplica] and the search-replica DSNs. The
    stored snapshot lists as many replica DSNs as the configuration given to
    the constructor, and without the entitlement the master's pool is the
    only pool opened. *)
Theorem replica_routing_license_gated (can_bind : string → bool)
    (startMetrics : bool) (license : option License) (cfg : Config)
    (ps : PlatformService) (choice : nat) :
  New connect can_bind startMetrics license cfg = Some ps →
  (GetReplica (sqlStore ps) choice = GetMaster (sqlStore ps) ↔
     entitled license = false ∨ DataSourceReplicas (Sql cfg) = []) ∧
  (GetSearchReplica (sqlStore ps) choice = GetMaster (sqlStore ps) ↔
     entitled license = false ∨ DataSourceSearchReplicas (Sql cfg) = []) ∧
  length (DataSourceReplicas (Sql (config ps))) =
    length (DataSourceReplicas (Sql cfg)) ∧
  length (DataSourceSearchReplicas (Sql (config ps))) =
    length (DataSourceSearchReplicas (Sql cfg)) ∧
  (entitled license = false → pools (sqlStore ps) = [DataSource (Sql cfg)]).
Proof.
  intros Hnew. apply New_inv in Hnew as (Hcfg & _ & Hinit).
  rewrite Hcfg. unfold GetReplica, GetSearchReplica, GetMaster.
  destruct (entitled license) eqn:Hent.
  - destruct (Initialize_entitled _ _ _ Hent Hinit)
      as (Hm & Hlr & Hls & Har & Has & _).
    rewrite Hm.
    split; [|split; [|split; [done|split; [done|discriminate]]]].
    + rewrite (select_master _ choice Har). split.
      * intros Hnil. right. rewrite Hnil in Hlr.
        destruct (DataSourceReplicas (Sql cfg)); [done|discriminate Hlr].
      * intros [Hf|Hnil]; [discriminate Hf|]. rewrite Hnil in Hlr.
        destruct (replicas (sqlStore ps)); [done|discriminate Hlr].
    + rewrite (select_master _ choice Has). split.
      * intros Hnil. right. rewrite Hnil in Hls.
        destruct (DataSourceSearchReplicas (Sql cfg)); [done|discriminate Hls].
      * intros [Hf|Hnil]; [discriminate Hf|]. rewrite Hnil in Hls.
        destruct (searchReplicas (sqlStore ps)); [done|discriminate Hls].
  - rewrite (Initialize_unentitled _ _ _ Hent Hinit). simpl.
    rewrite !select_nil.
    split; [split; [by left|done]|].
    split; [split; [by left|done]|]. done.
Qed.

End TopologyProperties.

Lemma replica_routing_license_gated_witness :
  ∃ ps,
    platform.New fixtures.always fixtures.always false
      (Some {| platform.ReadReplicas := true |}) fixtures.replicated_config = Some ps ∧
    platform.GetReplica (platform.sqlStore ps) 0 ≠
      platform.GetMaster (platform.sqlStore ps) ∧
    length (platform.DataSourceReplicas (platform.Sql (platform.config ps)))
      = 1%nat.
Proof.
  eexists. split; [reflexivity|].
  match goal with
  | |- platform.GetReplica (platform.sqlStore ?ps) _ ≠ _ ∧ _ =>
      destruct (replica_routing_license_gated fixtures.always
                  fixtures.always false
                  (Some {| platform.ReadReplicas := true |})
                  fixtures.replicated_config ps 0 eq_refl)
        as (Hrep & _ & Hlen & _)
  end.
  split; [|exact Hlen].
  intros Heq. apply Hrep in Heq as [Hf|Hnil]; discriminate.
Defined.

(** The same configuration without a license, and with an entitling one:
    without, reads go to the master and one pool is open. *)
Example replica_without_license :
  (platform.sqlStore <$>
     platform.New fixtures.always fixtures.always false None
       fixtures.replicated_config) =
    Some {| platform.pools := ["postgres://db/mattermost"];
            platform.master := 0;
            platform.replicas := []; platform.searchReplicas := [] |} ∧
  (platform.sqlStore <$>
     platform.New fixtures.always fixtures.always false
       (Some {| platform.ReadReplicas := true |}) fixtures.replicated_config) =
    Some {| platform.pools := ["postgres://db/mattermost";
                               "postgres://db/mattermost";
                               "postgres://db/mattermost"];
            platform.master := 0;
            platform.replicas := [1]; platform.searchReplicas := [2] |}.
Proof. split; reflexivity. Qed.

(** ** Metrics controller *)

Section MetricsProperties.

Import platform.









(** A service constructed without the metrics option never has a reachable
    endpoint, whatever is saved. *)
Lemma metrics_absent_forever (l : list ((string → bool) * Config)) :
  ∀ ps : PlatformService,
    metrics ps = Absent → http_Get (saves ps l) = ConnectionFailure.
Proof.
  induction l as [|[cb cfg] rest IH]; intros ps Hm; simpl.
  - unfold http_Get. by rewrite Hm.
  - apply IH. unfold SaveConfig.
    destruct (bool_decide _); simpl; [done|].
    unfold resetMetrics. simpl. by rewrite Hm.
Qed.

End MetricsProperties.



(** ** Goroutine tracker and shutdown *)

Section TrackerProperties.

Import platform.
Local Open Scope nat_scope.

Lemma sum_list_with_insert {A : Type} (f : A → nat) (l : list A) :
  ∀ (i : nat) (x y : A),
    l !! i = Some y →
    sum_list_with f (<[i:=x]> l) + f y = sum_list_with f l + f x.
Proof.
  induction l as [|a l IH]; intros i x y Hi; [done|].
  destruct i as [|i]; simpl in *.
  - injection Hi as ->. lia.
  - specialize (IH i x y Hi). lia.
Qed.

Lemma running_zero (ts : list Task) :
  running ts = 0 ↔ Forall completed ts.
Proof.
  unfold running. induction ts as [|t ts IH]; simpl.
  - split; [constructor|done].
  - rewrite Forall_cons. destruct t; simpl.
    + split; [lia|]. intros [[] _].
    + rewrite <- IH. split; [done|]. by intros [_ ?].
Qed.

Lemma running_pos (ts : list Task) :
  0 < running ts → ∃ i n e, ts !! i = Some (Running n e).
Proof.
  unfold running. induction ts as [|t ts IH]; simpl; [lia|].
  destruct t as [n e|e]; simpl.
  - intros _. by exists 0, n, e.
  - intros Hpos. destruct (IH Hpos) as (i & n & e' & Hi).
    by exists (S i), n, e'.
Qed.

Lemma tracked_started (todo : list Work) : tracked todo (started todo).
Proof. repeat split; simpl; done. Qed.

(** Every move keeps the counter in step with the running units. *)
Lemma exec_tracked (todo : list Work) (m : Move) (s s' : Tracker) :
  tracked todo s → exec m s = Some s' → tracked todo s'.
Proof.
  intros (Hc & Hl & Hr). destruct s as [c ts who]. simpl in *.
  destruct m as [|i]; simpl.
  - destruct who as [[|w rest]| |]; simpl in *.
    + intros [= <-]. repeat split; simpl; [done|lia|done].
    + intros [= <-]. unfold tracked, running. simpl.
      rewrite sum_list_with_app, length_app. simpl.
      fold (running ts). repeat split; [lia|lia|done].
    + destruct (c =? 0)%Z eqn:Hz; [|discriminate].
      intros [= <-]. apply Z.eqb_eq in Hz.
      repeat split; simpl; [done|lia|done].
    + discriminate.
  - destruct (ts !! i) as [[[|n] e|e]|] eqn:Hi; try discriminate.
    + intros [= <-]. unfold tracked. simpl. rewrite length_insert.
      pose proof (sum_list_with_insert
        (λ t, match t with Running _ _ => 1 | Completed _ => 0 end)
        ts i (Completed e) _ Hi) as Hsum. simpl in Hsum.
      fold (running ts) in Hsum. fold (running (<[i:=Completed e]> ts)) in Hsum.
      split; [lia|]. split; [done|].
      intros Hret. specialize (Hr Hret). lia.
    + intros [= <-]. unfold tracked. simpl. rewrite length_insert.
      pose proof (sum_list_with_insert
        (λ t, match t with Running _ _ => 1 | Completed _ => 0 end)
        ts i (Running n e) _ Hi) as Hsum. simpl in Hsum.
      fold (running ts) in Hsum. fold (running (<[i:=Running n e]> ts)) in Hsum.
      split; [lia|]. split; [done|exact Hr].
Qed.

(** Every move uses up exactly one of the moves that are left. *)
Lemma exec_moves_left (m : Move) (s s' : Tracker) :
  exec m s = Some s' → moves_left s = S (moves_left s').
Proof.
  destruct s as [c ts who]. unfold moves_left.
  destruct m as [|i]; simpl.
  - destruct who as [[|w rest]| |]; simpl.
    + by intros [= <-].
    + intros [= <-]. simpl. rewrite sum_list_with_app. simpl. lia.
    + destruct (c =? 0)%Z; [|discriminate]. by intros [= <-].
    + discriminate.
  - destruct (ts !! i) as [[[|n] e|e]|] eqn:Hi; try discriminate.
    + intros [= <-]. simpl.
      pose proof (sum_list_with_insert task_moves ts i (Completed e) _ Hi)
        as Hsum. simpl in Hsum. lia.
    + intros [= <-]. simpl.
      pose proof (sum_list_with_insert task_moves ts i (Running n e) _ Hi)
        as Hsum. simpl in Hsum. lia.
Qed.

Lemma run_tracked (todo : list Work) (schedule : list Move) :
  ∀ s s' : Tracker,
    tracked todo s → run schedule s = Some s' →
    tracked todo s' ∧ length schedule + moves_left s' = moves_left s.
Proof.
  induction schedule as [|m rest IH]; intros s s' Ht; simpl.
  - by intros [= <-].
  - destruct (exec m s) as [s1|] eqn:Hm; simpl; [|discriminate].
    intros Hrun.
    destruct (IH s1 s' (exec_tracked _ _ _ _ Ht Hm) Hrun) as [Ht' Hlen].
    split; [done|]. rewrite (exec_moves_left _ _ _ Hm). lia.
Qed.

(** [Shutdown()] can return exactly when every launched unit is done. *)
Lemma shutdown_ready (todo : list Work) (s : Tracker) :
  tracked todo s → caller s = InShutdown →
  is_Some (exec CallerMoves s) ↔ Forall completed (tasks s).
Proof.
  intros (Hc & _ & _) Hwho. rewrite <- running_zero. simpl. rewrite Hwho.
  destruct (goroutineCount s =? 0)%Z eqn:Hz.
  - apply Z.eqb_eq in Hz. split; [lia|by eexists].
  - apply Z.eqb_neq in Hz. split; [by intros [? ?]|lia].
Qed.

(** No reachable state is stuck before [Shutdown()] has returned. *)
Lemma tracked_progress (todo : list Work) (s : Tracker) :
  tracked todo s → caller s ≠ Returned → ∃ m s', exec m s = Some s'.
Proof.
  intros Ht Hwho. destruct (caller s) as [[|w rest]| |] eqn:Hc; [| | |done].
  - exists CallerMoves. simpl. rewrite Hc. by eexists.
  - exists CallerMoves. simpl. rewrite Hc. by eexists.
  - destruct (decide (running (tasks s) = 0)) as [Hz|Hnz].
    + exists CallerMoves. apply (shutdown_ready todo s Ht Hc).
      by apply running_zero.
    + destruct (running_pos (tasks s)) as (i & n & e & Hi); [lia|].
      exists (TaskMoves i). simpl. rewrite Hi. destruct n; by eexists.
Qed.

Lemma Returned_or_not (c : Caller) : c = Returned ∨ c ≠ Returned.
Proof. destruct c; [by right|by right|by left]. Qed.

(** From every reachable state some schedule brings [Shutdown()] to its
    return. *)
Lemma tracked_returns (todo : list Work) (n : nat) :
  ∀ s : Tracker,
    tracked todo s → moves_left s = n →
    ∃ rest s', run rest s = Some s' ∧ caller s' = Returned.
Proof.
  induction n as [|n IH]; intros s Ht Hn.
  - destruct (Returned_or_not (caller s)) as [Hr|Hr]; [by exists [], s|].
    destruct (tracked_progress todo s Ht Hr) as (m & s1 & Hm).
    apply exec_moves_left in Hm. lia.
  - destruct (Returned_or_not (caller s)) as [Hr|Hr]; [by exists [], s|].
    destruct (tracked_progress todo s Ht Hr) as (m & s1 & Hm).
    destruct (IH s1) as (rest & s' & Hrun & Hret).
    + by eapply exec_tracked.
    + apply exec_moves_left in Hm. lia.
    + exists (m :: rest), s'. simpl. rewrite Hm. done.
Qed.

(** C2. For every list of units of work, none included, and every state
    [s] an interleaving of the caller and the units can reach:
    - the moves made and the moves left add up to a total fixed by the work,
      so no interleaving goes on for ever, and from [s] some schedule brings
      [Shutdown()] to its return;
    - the counter is the number of units still running;
    - a caller that is launching is never blocked;
    - a caller inside [Shutdown()] has launched every unit and can return
      exactly when all of them have completed, which with no unit at all is
      at once;
    - when [Shutdown()] has returned, the counter is exactly zero and every
      unit has been launched and has completed. *)
Theorem Shutdown_drains_tracked_work
    (todo : list Work) (schedule : list Move) (s : Tracker) :
  run schedule (started todo) = Some s →
  length schedule + moves_left s = moves_left (started todo) ∧
  goroutineCount s = Z.of_nat (running (tasks s)) ∧
  (∃ rest s', run rest s = Some s' ∧ caller s' = Returned) ∧
  match caller s with
  | Launching _ => is_Some (exec CallerMoves s)
  | InShutdown =>
      length (tasks s) = length todo ∧
      (is_Some (exec CallerMoves s) ↔ Forall completed (tasks s)) ∧
      (todo = [] → is_Some (exec CallerMoves s))
  | Returned =>
      goroutineCount s = 0%Z ∧
      length (tasks s) = length todo ∧
      Forall completed (tasks s)
  end.
Proof.
  intros Hrun.
  destruct (run_tracked todo schedule _ _ (tracked_started todo) Hrun)
    as [Ht Hlen].
  split; [exact Hlen|].
  split; [apply Ht|].
  split; [by eapply tracked_returns|].
  pose proof Ht as (Hc & Hl & Hr).
  destruct (caller s) as [[|w rest]| |] eqn:Hwho; simpl in Hl.
  - simpl. rewrite Hwho. by eexists.
  - simpl. rewrite Hwho. by eexists.
  - split; [lia|]. split; [by apply (shutdown_ready todo)|].
    intros ->. apply (shutdown_ready [] s Ht Hwho).
    simpl in Hl. destruct (tasks s); [constructor|simpl in Hl; lia].
  - specialize (Hr eq_refl). split; [exact Hr|]. split; [lia|].
    apply running_zero. lia.
Qed.

(** With nothing launched, the caller's two moves are the whole run:
    [Shutdown()] is called and returns at its first move. *)
Lemma Shutdown_without_work :
  run [CallerMoves; CallerMoves] (started []) =
    Some {| goroutineCount := 0; tasks := []; caller := Returned |} ∧
  ∀ i : nat, exec (TaskMoves i) (started []) = None.
Proof. split; [reflexivity|]. intros i. reflexivity. Qed.

End TrackerProperties.

Lemma Shutdown_drains_tracked_work_witness :
  ∃ s,
    platform.run fixtures.one_interleaving (platform.started fixtures.two_units) = Some s ∧
    platform.caller s = platform.Returned ∧
    platform.goroutineCount s = 0%Z ∧
    Forall platform.completed (platform.tasks s).
Proof.
  eexists. split; [reflexivity|]. split; [reflexivity|].
  match goal with
  | |- platform.goroutineCount ?s = _ ∧ _ =>
      destruct (Shutdown_drains_tracked_work fixtures.two_units fixtures.one_interleaving s
                  eq_refl) as (_ & _ & _ & Hret)
  end.
  simpl in Hret. destruct Hret as (Hzero & _ & Hall).
  split; [exact Hzero|exact Hall].
Defined.

(** The same units when the caller tries to return too early: the schedule
    in which [Shutdown()] returns while the first unit still runs cannot be
    run. *)
Example Shutdown_blocks_while_running :
  platform.run [platform.CallerMoves; platform.CallerMoves;
                platform.CallerMoves; platform.TaskMoves 1;
                platform.CallerMoves] (platform.started fixtures.two_units) = None.
Proof. reflexivity. Qed.

(** * Further properties of the file store *)

Section CheckProperties.

Import filestore.

Lemma set_AmazonS3Endpoint_same (s : FileBackendSettings) :
  set_AmazonS3Endpoint (AmazonS3Endpoint s) s = s.
Proof. by destruct s. Qed.

(** The three outcomes of the check, by the bucket and the endpoint. *)
Lemma CheckMandatoryS3Fields_cases (s : FileBackendSettings) :
  (AmazonS3Bucket s = "" ∧
   CheckMandatoryS3Fields s =
     (s, Some (errors_New "missing s3 bucket settings"))) ∨
  (AmazonS3Bucket s ≠ "" ∧ AmazonS3Endpoint s = "" ∧
   CheckMandatoryS3Fields s =
     (set_AmazonS3Endpoint "s3.amazonaws.com" s, None)) ∨
  (AmazonS3Bucket s ≠ "" ∧ AmazonS3Endpoint s ≠ "" ∧
   CheckMandatoryS3Fields s = (s, None)).
Proof.
  destruct (decide (AmazonS3Bucket s = "")) as [Hb|Hb].
  - left. split; [done|]. by apply CheckMandatoryS3Fields_missing_bucket.
  - right. destruct (decide (AmazonS3Endpoint s = "")) as [He|He].
    + left. split; [done|]. split; [done|].
      by apply CheckMandatoryS3Fields_default_endpoint.
    + right. split; [done|]. split; [done|].
      by apply CheckMandatoryS3Fields_untouched.
Qed.

(** X1. Settings that pass the check are usable as they stand: after a call
    that returned nil, the receiver has a non-empty bucket, which is the one
    it had, and a non-empty endpoint. *)
Theorem CheckMandatoryS3Fields_passed (s : FileBackendSettings) :
  snd (CheckMandatoryS3Fields s) = None →
  AmazonS3Bucket (fst (CheckMandatoryS3Fields s)) = AmazonS3Bucket s ∧
  AmazonS3Bucket (fst (CheckMandatoryS3Fields s)) ≠ "" ∧
  AmazonS3Endpoint (fst (CheckMandatoryS3Fields s)) ≠ "".
Proof.
  destruct (CheckMandatoryS3Fields_cases s)
    as [(Hb & ->)|[(Hb & He & ->)|(Hb & He & ->)]]; simpl.
  - discriminate.
  - intros _. split; [done|]. split; [done|discriminate].
  - intros _. done.
Qed.

(** X2. The check is idempotent: a second call on the receiver the first
    call left behind changes nothing more and returns what the first call
    returned. *)
Theorem CheckMandatoryS3Fields_idempotent (s : FileBackendSettings) :
  CheckMandatoryS3Fields (fst (CheckMandatoryS3Fields s)) =
  CheckMandatoryS3Fields s.
Proof.
  destruct (CheckMandatoryS3Fields_cases s)
    as [(Hb & Hs)|[(Hb & He & Hs)|(Hb & He & Hs)]]; rewrite Hs; simpl.
  - exact Hs.
  - rewrite CheckMandatoryS3Fields_untouched; simpl; [|done|discriminate].
    done.
  - exact Hs.
Qed.

(** X3. The check writes nothing but the endpoint, and only an empty one:
    the receiver after the call is the receiver before it with, at most, a
    new endpoint, and an endpoint that was configured is kept, with or
    without a bucket. *)
Theorem CheckMandatoryS3Fields_frame (s : FileBackendSettings) :
  fst (CheckMandatoryS3Fields s) =
    set_AmazonS3Endpoint
      (AmazonS3Endpoint (fst (CheckMandatoryS3Fields s))) s ∧
  (AmazonS3Endpoint s ≠ "" → fst (CheckMandatoryS3Fields s) = s) ∧
  (AmazonS3Endpoint (fst (CheckMandatoryS3Fields s)) = AmazonS3Endpoint s ∨
   AmazonS3Endpoint (fst (CheckMandatoryS3Fields s)) = "s3.amazonaws.com").
Proof.
  destruct (CheckMandatoryS3Fields_cases s)
    as [(Hb & ->)|[(Hb & He & ->)|(Hb & He & ->)]]; simpl.
  - rewrite set_AmazonS3Endpoint_same. split; [done|]. split; [done|by left].
  - split; [done|]. split; [by intros Hne|by right].
  - rewrite set_AmazonS3Endpoint_same. split; [done|]. split; [done|by left].
Qed.

End CheckProperties.

Lemma CheckMandatoryS3Fields_passed_witness :
  filestore.AmazonS3Endpoint
    (fst (filestore.CheckMandatoryS3Fields
            (filestore.set_AmazonS3Endpoint ""
               {| filestore.DriverName := "amazons3";
                  filestore.Directory := "";
                  filestore.AmazonS3AccessKeyId := "key";
                  filestore.AmazonS3SecretAccessKey := "secret";
                  filestore.AmazonS3Bucket := "bucket";
                  filestore.AmazonS3PathPrefix := "";
                  filestore.AmazonS3Region := "";
                  filestore.AmazonS3Endpoint := "minio:9000";
                  filestore.AmazonS3SSL := true;
                  filestore.AmazonS3SignV2 := false;
                  filestore.AmazonS3SSE := false;
                  filestore.AmazonS3Trace := false;
                  filestore.SkipVerify := false;
                  filestore.AmazonS3RequestTimeoutMilliseconds := 30000 |})))
    ≠ "".
Proof.
  apply CheckMandatoryS3Fields_passed. reflexivity.
Defined.

Section FromConfigProperties.

Import filestore.

Variable ImageDriverLocal : string.

(** What the constructor returns for a local configuration. *)
Lemma NewFileBackendSettingsFromConfig_local_eq
    (fs : model.FileSettings) (enableComplianceFeature skipVerify : bool) :
  model.DriverName fs = Some ImageDriverLocal →
  NewFileBackendSettingsFromConfig ImageDriverLocal (Some fs)
    enableComplianceFeature skipVerify =
  match model.Directory fs with
  | Some dir =>
      Some {| DriverName := ImageDriverLocal; Directory := dir;
              AmazonS3AccessKeyId := ""; AmazonS3SecretAccessKey := "";
              AmazonS3Bucket := ""; AmazonS3PathPrefix := "";
              AmazonS3Region := ""; AmazonS3Endpoint := "";
              AmazonS3SSL := false; AmazonS3SignV2 := false;
              AmazonS3SSE := false; AmazonS3Trace := false;
              SkipVerify := false;
              AmazonS3RequestTimeoutMilliseconds := 0%Z |}
  | None => None
  end.
Proof.
  intros Hd. unfold NewFileBackendSettingsFromConfig. simpl.
  rewrite Hd. simpl.
  destruct (decide (ImageDriverLocal = ImageDriverLocal)) as [_|Hne];
    [|by destruct Hne].
  by destruct (model.Directory fs).
Qed.

(** X4. For a local configuration the constructor reads the driver name and
    the directory and nothing else: it returns exactly when the directory
    pointer is set, even with every S3 pointer nil, and what it returns
    carries the directory while every S3 field is at its zero value, so the
    [skipVerify] argument is dropped and [AmazonS3SSL] is false although a
    nil pointer means true for another driver. *)
Theorem NewFileBackendSettingsFromConfig_local
    (fs : model.FileSettings) (enableComplianceFeature skipVerify : bool) :
  model.DriverName fs = Some ImageDriverLocal →
  (is_Some (NewFileBackendSettingsFromConfig ImageDriverLocal (Some fs)
              enableComplianceFeature skipVerify) ↔
   is_Some (model.Directory fs)) ∧
  ∀ s : FileBackendSettings,
    NewFileBackendSettingsFromConfig ImageDriverLocal (Some fs)
      enableComplianceFeature skipVerify = Some s →
    DriverName s = ImageDriverLocal ∧
    model.Directory fs = Some (Directory s) ∧
    AmazonS3Bucket s = "" ∧ AmazonS3Endpoint s = "" ∧
    AmazonS3AccessKeyId s = "" ∧ AmazonS3SecretAccessKey s = "" ∧
    AmazonS3PathPrefix s = "" ∧ AmazonS3Region s = "" ∧
    AmazonS3SSL s = false ∧ AmazonS3SignV2 s = false ∧
    AmazonS3SSE s = false ∧ AmazonS3Trace s = false ∧
    SkipVerify s = false ∧
    AmazonS3RequestTimeoutMilliseconds s = 0%Z.
Proof.
  intros Hd. rewrite (NewFileBackendSettingsFromConfig_local_eq _ _ _ Hd).
  destruct (model.Directory fs) as [dir|]; split.
  - split; intros _; by eexists.
  - intros s [= <-]. simpl. repeat split; done.
  - split; intros [x Hx]; discriminate Hx.
  - intros s Hs. discriminate Hs.
Qed.

(** X5. For any other driver the constructor copies the driver name, the
    six S3 strings and the request timeout from behind their pointers as
    they are, passes [skipVerify] through, and leaves [Directory] empty
    whatever the configuration's directory is. *)
Theorem NewFileBackendSettingsFromConfig_copies
    (fs : model.FileSettings) (enableComplianceFeature skipVerify : bool)
    (s : FileBackendSettings) :
  model.DriverName fs ≠ Some ImageDriverLocal →
  NewFileBackendSettingsFromConfig ImageDriverLocal (Some fs)
    enableComplianceFeature skipVerify = Some s →
  model.DriverName fs = Some (DriverName s) ∧
  model.AmazonS3AccessKeyId fs = Some (AmazonS3AccessKeyId s) ∧
  model.AmazonS3SecretAccessKey fs = Some (AmazonS3SecretAccessKey s) ∧
  model.AmazonS3Bucket fs = Some (AmazonS3Bucket s) ∧
  model.AmazonS3PathPrefix fs = Some (AmazonS3PathPrefix s) ∧
  model.AmazonS3Region fs = Some (AmazonS3Region s) ∧
  model.AmazonS3Endpoint fs = Some (AmazonS3Endpoint s) ∧
  model.AmazonS3RequestTimeoutMilliseconds fs =
    Some (AmazonS3RequestTimeoutMilliseconds s) ∧
  SkipVerify s = skipVerify ∧
  Directory s = "".
Proof.
  intros Hd. unfold NewFileBackendSettingsFromConfig.
  destruct fs as [dn dir ak sk bk pp rg ep ssl sv2 sse tr tmo]; simpl in *.
  destruct dn as [dn|]; simpl; [|discriminate].
  destruct (decide (dn = ImageDriverLocal)) as [->|_]; [by destruct Hd|].
  destruct ak, sk, bk, pp, rg, ep, tmo; simpl; try discriminate.
  intros [= <-]. simpl. repeat split; done.
Qed.

(** The bucket and the endpoint of the settings built for a driver that is
    not the local one are the configuration's. *)
Lemma NewFileBackendSettingsFromConfig_bucket_endpoint
    (fs : model.FileSettings) (enableComplianceFeature skipVerify : bool)
    (s : FileBackendSettings) :
  model.DriverName fs ≠ Some ImageDriverLocal →
  NewFileBackendSettingsFromConfig ImageDriverLocal (Some fs)
    enableComplianceFeature skipVerify = Some s →
  model.AmazonS3Bucket fs = Some (AmazonS3Bucket s) ∧
  model.AmazonS3Endpoint fs = Some (AmazonS3Endpoint s).
Proof.
  intros Hd. unfold NewFileBackendSettingsFromConfig.
  destruct fs as [dn dir ak sk bk pp rg ep ssl sv2 sse tr tmo]; simpl in *.
  destruct dn as [dn|]; simpl; [|discriminate].
  destruct (decide (dn = ImageDriverLocal)) as [->|_]; [by destruct Hd|].
  destruct ak, sk, bk, pp, rg, ep, tmo; simpl; try discriminate.
  intros [= <-]. done.
Qed.

(** X6. The settings built from a configuration and then checked: the check
    fails exactly when the configuration is local, whose settings never have
    a bucket, or names the empty bucket; when it passes, the endpoint is the
    configured one, or "s3.amazonaws.com" for an empty one. *)
Theorem settings_from_config_checked
    (fs : model.FileSettings) (enableComplianceFeature skipVerify : bool)
    (s : FileBackendSettings) :
  NewFileBackendSettingsFromConfig ImageDriverLocal (Some fs)
    enableComplianceFeature skipVerify = Some s →
  (is_Some (snd (CheckMandatoryS3Fields s)) ↔
   model.DriverName fs = Some ImageDriverLocal ∨
   model.AmazonS3Bucket fs = Some "") ∧
  (snd (CheckMandatoryS3Fields s) = None →
   ∃ endpoint,
     model.AmazonS3Endpoint fs = Some endpoint ∧
     AmazonS3Endpoint (fst (CheckMandatoryS3Fields s)) =
       if decide (endpoint = "") then "s3.amazonaws.com" else endpoint).
Proof.
  intros Hs.
  destruct (decide (model.DriverName fs = Some ImageDriverLocal)) as [Hd|Hd].
  - rewrite (NewFileBackendSettingsFromConfig_local_eq _ _ _ Hd) in Hs.
    destruct (model.Directory fs) as [dir|]; [|discriminate Hs].
    injection Hs as <-.
    rewrite CheckMandatoryS3Fields_missing_bucket by done. simpl.
    split; [split; [by left|by eexists]|discriminate].
  - destruct (NewFileBackendSettingsFromConfig_bucket_endpoint _ _ _ _ Hd Hs)
      as (Hbk & Hep).
    destruct (CheckMandatoryS3Fields_cases s)
      as [(Hb & ->)|[(Hb & He & ->)|(Hb & He & ->)]]; simpl.
    + split; [|discriminate].
      split; [intros _; right; by rewrite Hbk, Hb|by eexists].
    + split.
      * split; [intros [x Hx]; discriminate Hx|].
        intros [Hl|Hbe]; [by destruct Hd|].
        rewrite Hbk in Hbe. injection Hbe as Hbe. by destruct Hb.
      * intros _. exists (AmazonS3Endpoint s). split; [done|].
        rewrite He. by destruct (decide ("" = "")).
    + split.
      * split; [intros [x Hx]; discriminate Hx|].
        intros [Hl|Hbe]; [by destruct Hd|].
        rewrite Hbk in Hbe. injection Hbe as Hbe. by destruct Hb.
      * intros _. exists (AmazonS3Endpoint s). split; [done|].
        by destruct (decide (AmazonS3Endpoint s = "")).
Qed.

End FromConfigProperties.

Section BackendFurther.

Import filestore.

Context {Reader Ctx World S3FileBackend : Type}.
Variable s3_methods : @methods Reader Ctx World (ptr S3FileBackend).
Variable local_methods : @methods Reader Ctx World (ptr LocalFileBackend).
Variable NewS3FileBackend :
  FileBackendSettings → call World (ptr S3FileBackend * option error).

Local Abbreviation NewFileBackend :=
  (NewFileBackend s3_methods local_methods NewS3FileBackend).

(** Every driver but "amazons3" is decided without the S3 constructor. *)
Lemma NewFileBackend_not_s3 (settings : FileBackendSettings) (w : World) :
  DriverName settings ≠ "amazons3" →
  NewFileBackend settings w =
    Some (if decide (DriverName settings = "local")
          then (FileBackend_of local_methods
                  (Some {| directory := Directory settings |}), None)
          else (FileBackend_nil,
                Some (errors_New "no valid filestorage driver found")),
          w).
Proof.
  intros Hs3. unfold filestore.NewFileBackend.
  destruct (decide (DriverName settings = driverS3)) as [Heq|_];
    [by destruct Hs3|].
  unfold driverLocal.
  by destruct (decide (DriverName settings = "local")).
Qed.

(** X7. Whatever the driver and the S3 constructor, [NewFileBackend] hands
    back either a backend or an error, never both and never neither: the
    error is nil exactly when the backend is a non-nil interface value. For
    "amazons3" that holds even when the constructor returns a nil pointer
    without an error: the pointer is wrapped in a non-nil interface. *)
Theorem NewFileBackend_backend_or_error
    (settings : FileBackendSettings) (w w' : World)
    (fb : @FileBackend Reader Ctx World) (err : option error) :
  NewFileBackend settings w = Some ((fb, err), w') →
  err = None ↔ fb ≠ FileBackend_nil.
Proof.
  destruct (decide (DriverName settings = "amazons3")) as [Hs3|Hs3].
  - rewrite (NewFileBackend_s3 _ _ _ _ _ Hs3).
    destruct (NewS3FileBackend settings w) as [[[b [e|]] w1]|];
      [| |discriminate].
    + intros [= <- <- <-]. split; [discriminate|]. intros Hne. by destruct Hne.
    + intros [= <- <- <-]. split; [discriminate|done].
  - rewrite (NewFileBackend_not_s3 _ _ Hs3).
    destruct (decide (DriverName settings = "local")).
    + intros [= <- <- <-]. split; [discriminate|done].
    + intros [= <- <- <-]. split; [discriminate|]. intros Hne. by destruct Hne.
Qed.

(** X8. [NewFileBackend] panics only inside the S3 constructor, and only
    that constructor touches the world: for any driver other than
    "amazons3" the call returns, and the world after it is the world before
    it. *)
Theorem NewFileBackend_effects (settings : FileBackendSettings) (w : World) :
  (NewFileBackend settings w = None ↔
   DriverName settings = "amazons3" ∧ NewS3FileBackend settings w = None) ∧
  (DriverName settings ≠ "amazons3" →
   ∃ r, NewFileBackend settings w = Some (r, w)).
Proof.
  split.
  - destruct (decide (DriverName settings = "amazons3")) as [Hs3|Hs3].
    + rewrite (NewFileBackend_s3 _ _ _ _ _ Hs3).
      destruct (NewS3FileBackend settings w) as [[[b [e|]] w1]|]; split;
        try discriminate; try (intros [_ Hn]; discriminate Hn); done.
    + rewrite (NewFileBackend_not_s3 _ _ Hs3). split; [discriminate|].
      intros [Heq _]. by destruct Hs3.
  - intros Hs3. rewrite (NewFileBackend_not_s3 _ _ Hs3). by eexists.
Qed.

(** X9. The errors of [NewFileBackend] are of two kinds, told apart by the
    driver. For "amazons3" the error is the constructor's, wrapped with
    "unable to connect to the s3 backend", and anything the constructor
    returned beside it is dropped; for an unrecognized driver it is "no
    valid filestorage driver found" and the world is untouched. The local
    driver never fails. *)
Theorem NewFileBackend_errors
    (settings : FileBackendSettings) (w w' : World)
    (fb : @FileBackend Reader Ctx World) (e : error) :
  NewFileBackend settings w = Some ((fb, Some e), w') →
  fb = FileBackend_nil ∧
  DriverName settings ≠ "local" ∧
  ((DriverName settings = "amazons3" ∧
    ∃ (b : ptr S3FileBackend) (cause : error),
      NewS3FileBackend settings w = Some ((b, Some cause), w') ∧
      e = errors_Wrap cause "unable to connect to the s3 backend") ∨
   (DriverName settings ≠ "amazons3" ∧
    e = errors_New "no valid filestorage driver found" ∧ w' = w)).
Proof.
  destruct (decide (DriverName settings = "amazons3")) as [Hs3|Hs3].
  - rewrite (NewFileBackend_s3 _ _ _ _ _ Hs3).
    destruct (NewS3FileBackend settings w) as [[[b [e0|]] w1]|];
      [| |discriminate].
    + intros [= <- <- <-]. split; [done|].
      split; [rewrite Hs3; discriminate|].
      left. split; [done|]. by exists b, e0.
    + intros [= _ _].
  - rewrite (NewFileBackend_not_s3 _ _ Hs3).
    destruct (decide (DriverName settings = "local")) as [Hl|Hl].
    + intros [= _ _].
    + intros [= <- <- <-]. split; [done|]. split; [done|]. by right.
Qed.

End BackendFurther.

Section ConfigToBackend.

Import filestore.

Context {Reader Ctx World S3FileBackend : Type}.
Variable s3_methods : @methods Reader Ctx World (ptr S3FileBackend).
Variable local_methods : @methods Reader Ctx World (ptr LocalFileBackend).
Variable NewS3FileBackend :
  FileBackendSettings → call World (ptr S3FileBackend * option error).
Variable ImageDriverLocal : string.

(** X10. From configuration to backend, for the local driver: when the
    model package's local driver name is the file store's, a configuration
    with that driver and a directory yields settings from which
    [NewFileBackend] builds a local backend rooted at the configured
    directory, with no error, no call of the S3 constructor and the world
    untouched, whether or not any S3 pointer of the configuration is set. *)
Theorem local_config_gives_local_backend
    (fs : model.FileSettings) (dir : string)
    (enableComplianceFeature skipVerify : bool) (w : World) :
  ImageDriverLocal = driverLocal →
  model.DriverName fs = Some ImageDriverLocal →
  model.Directory fs = Some dir →
  ∃ s : FileBackendSettings,
    NewFileBackendSettingsFromConfig ImageDriverLocal (Some fs)
      enableComplianceFeature skipVerify = Some s ∧
    NewFileBackend s3_methods local_methods NewS3FileBackend s w =
      Some ((FileBackend_of local_methods (Some {| directory := dir |}),
             None), w).
Proof.
  intros Hlocal Hd Hdir.
  rewrite (NewFileBackendSettingsFromConfig_local_eq _ _ _ _ Hd), Hdir.
  eexists. split; [reflexivity|].
  rewrite NewFileBackend_not_s3; simpl; [|by rewrite Hlocal].
  rewrite Hlocal. unfold driverLocal.
  by destruct (decide ("local" = "local")).
Qed.

End ConfigToBackend.

Lemma NewFileBackendSettingsFromConfig_local_witness :
  ∃ s, filestore.NewFileBackendSettingsFromConfig "local"
         (Some fixtures.local_config) true true = Some s ∧
       filestore.Directory s = "./data/" ∧
       filestore.SkipVerify s = false ∧
       filestore.AmazonS3SSE s = false.
Proof.
  destruct (NewFileBackendSettingsFromConfig_local "local"
              fixtures.local_config true true eq_refl) as [Hret Hall].
  destruct (proj2 Hret) as [s Hs]; [by eexists|].
  exists s. split; [exact Hs|].
  destruct (Hall s Hs)
    as (_ & Hdir & _ & _ & _ & _ & _ & _ & _ & _ & Hsse & _ & Hskip & _).
  split; [unfold fixtures.local_config in Hdir; simpl in Hdir; congruence|].
  split; [exact Hskip|exact Hsse].
Defined.

Lemma NewFileBackendSettingsFromConfig_copies_witness :
  ∃ s, filestore.NewFileBackendSettingsFromConfig "local"
         (Some fixtures.s3_config) true true = Some s ∧
       filestore.AmazonS3Bucket s = "bucket" ∧
       filestore.SkipVerify s = true ∧
       filestore.Directory s = "".
Proof.
  destruct (filestore.NewFileBackendSettingsFromConfig "local"
              (Some fixtures.s3_config) true true) as [s|] eqn:Hs;
    [|vm_compute in Hs; discriminate Hs].
  exists s. split; [reflexivity|].
  destruct (NewFileBackendSettingsFromConfig_copies "local"
              fixtures.s3_config true true s ltac:(discriminate) Hs)
    as (_ & _ & _ & Hbk & _ & _ & _ & _ & Hskip & Hdir).
  split; [|split; [exact Hskip|exact Hdir]].
  unfold fixtures.s3_config in Hbk. simpl in Hbk. by injection Hbk as <-.
Defined.

Lemma settings_from_config_checked_witness :
  ∃ s, filestore.NewFileBackendSettingsFromConfig "local"
         (Some fixtures.s3_config) true true = Some s ∧
       snd (filestore.CheckMandatoryS3Fields s) = None ∧
       filestore.AmazonS3Endpoint (fst (filestore.CheckMandatoryS3Fields s)) =
         "s3.amazonaws.com".
Proof.
  eexists. split; [reflexivity|]. split; [reflexivity|].
  match goal with
  | |- filestore.AmazonS3Endpoint
         (fst (filestore.CheckMandatoryS3Fields ?s)) = _ =>
      destruct (settings_from_config_checked "local" fixtures.s3_config
                  true true s eq_refl) as [_ Hpass]
  end.
  destruct (Hpass eq_refl) as (endpoint & Hep & Hres).
  unfold fixtures.s3_config in Hep. simpl in Hep. injection Hep as <-.
  exact Hres.
Defined.

Lemma NewFileBackend_backend_or_error_witness :
  ∃ fb err,
    filestore.NewFileBackend fixtures.s3_methods fixtures.local_methods
      fixtures.NewS3FileBackend (fixtures.with_driver "amazons3" "") [] =
      Some ((fb, err), []) ∧
    fb = filestore.FileBackend_nil ∧ err ≠ None.
Proof.
  eexists _, _. split; [reflexivity|]. split; [reflexivity|].
  intros Hnone.
  apply (NewFileBackend_backend_or_error fixtures.s3_methods
           fixtures.local_methods fixtures.NewS3FileBackend
           (fixtures.with_driver "amazons3" "") [] [] _ _ eq_refl) in Hnone.
  by destruct Hnone.
Defined.

Lemma NewFileBackend_errors_witness :
  ∃ fb e,
    filestore.NewFileBackend fixtures.s3_methods fixtures.local_methods
      fixtures.NewS3FileBackend (fixtures.with_driver "amazons3" "") [] =
      Some ((fb, Some e), []) ∧
    e = errors_Wrap (errors_New "missing s3 bucket settings")
          "unable to connect to the s3 backend".
Proof.
  destruct (filestore.NewFileBackend fixtures.s3_methods
              fixtures.local_methods fixtures.NewS3FileBackend
              (fixtures.with_driver "amazons3" "") [])
    as [[[fb [e|]] w']|] eqn:Hnew;
    try (vm_compute in Hnew; discriminate Hnew).
  assert (Hw : w' = []) by (vm_compute in Hnew; congruence).
  subst w'. exists fb, e. split; [reflexivity|].
  destruct (NewFileBackend_errors fixtures.s3_methods fixtures.local_methods
              fixtures.NewS3FileBackend (fixtures.with_driver "amazons3" "")
              [] [] fb e Hnew)
    as (_ & _ & [(_ & b & cause & Hc & He)|(Hne & _)]).
  - vm_compute in Hc. congruence.
  - by destruct Hne.
Defined.

Lemma local_config_gives_local_backend_witness :
  ∃ s, filestore.NewFileBackendSettingsFromConfig "local"
         (Some fixtures.local_config) true true = Some s ∧
       filestore.NewFileBackend fixtures.s3_methods fixtures.local_methods
         fixtures.NewS3FileBackend s [] =
       Some ((filestore.FileBackend_of fixtures.local_methods
                (Some {| filestore.directory := "./data/" |}), None), []).
Proof.
  apply (local_config_gives_local_backend fixtures.s3_methods
           fixtures.local_methods fixtures.NewS3FileBackend "local"
           fixtures.local_config "./data/" true true []); reflexivity.
Defined.
